(** * A shallow embedding of [myapi.py]

    The service keeps one module-level dictionary, [students], from integer
    ids to student dictionaries, and exposes seven FastAPI handlers over it.
    Python's [int] is unbounded, so ids and ages are [Z].  A student
    dictionary is a [gmap string value]; the outer [students] dictionary is
    iterated by two handlers, so it is kept as an insertion-ordered
    association list with the usual dictionary operations. *)

From Stdlib Require Import ZArith.
From stdpp Require Import gmap strings list fin_maps.

Local Open Scope string_scope.
Local Open Scope list_scope.
Local Open Scope Z_scope.

(** ** Values and dictionaries *)

(** The Python values that can sit in a student dictionary or in a
    response body: [None], an [int], a [str]. *)
Inductive value :=
| VNone
| VInt (n : Z)
| VStr (s : string).

#[global] Instance value_eq_dec : EqDecision value.
Proof. solve_decision. Defined.

(** Python's [==] on these values. *)
Definition py_eq (a b : value) : bool := bool_decide (a = b).

(** An [Optional[str]] / [Optional[int]] seen as a Python value. *)
Definition of_opt_str (o : option string) : value :=
  match o with Some s => VStr s | None => VNone end.

(** The insertion-ordered dictionary with integer keys. *)
Module PyDict.

Definition t (V : Type) := list (Z * V).

Section Ops.
Context {V : Type}.

(** [d[k]]; [None] stands for [KeyError]. *)
Fixpoint getitem (k : Z) (d : t V) : option V :=
  match d with
  | [] => None
  | (k', v) :: rest => if decide (k = k') then Some v else getitem k rest
  end.

(** [k in d] *)
Definition contains (k : Z) (d : t V) : bool :=
  match getitem k d with Some _ => true | None => false end.

(** [d[k] = v]: an existing key keeps its place, a new key goes last. *)
Fixpoint setitem (k : Z) (v : V) (d : t V) : t V :=
  match d with
  | [] => [(k, v)]
  | (k', v') :: rest =>
      if decide (k = k') then (k', v) :: rest
      else (k', v') :: setitem k v rest
  end.

(** What [del d[k]] leaves, for a key that is present. *)
Definition delitem (k : Z) (d : t V) : t V :=
  filter (λ kv, kv.1 ≠ k) d.

(** The keys in iteration order. *)
Definition keys (d : t V) : list Z := d.*1.

(** A dictionary never holds a key twice. *)
Definition wf (d : t V) : Prop := NoDup (keys d).
End Ops.

End PyDict.

(** ** The pydantic models *)

Module Student.
Record t := { name : string; age : Z; year : string }.

(** [student.dict()] *)
Definition dict (s : t) : gmap string value :=
  {[ "name" := VStr (name s); "age" := VInt (age s); "year" := VStr (year s) ]}.
End Student.

Module UpdateStudent.
(** Every field is [Optional[...] = None]. *)
Record t := { name : option string; age : option Z; year : option string }.

(** A field of the JSON body before validation: missing, an explicit
    [null], or a value of the declared type. *)
Inductive field (A : Type) :=
| Absent
| Null
| Present (a : A).
Arguments Absent {A}.
Arguments Null {A}.
Arguments Present {A} a.

Record body := { b_name : field string; b_age : field Z; b_year : field string }.

(** Validation of one [Optional[A] = None] field: a missing field takes the
    default [None], and [null] validates as [None]. *)
Definition validate_field {A} (f : field A) : option A :=
  match f with
  | Absent => None
  | Null => None
  | Present a => Some a
  end.

Definition validate (b : body) : t :=
  {| name := validate_field (b_name b);
     age := validate_field (b_age b);
     year := validate_field (b_year b) |}.
End UpdateStudent.

(** ** The store *)

Abbreviation store := (PyDict.t (gmap string value)).

(** The module-level [students] at start-up. *)
Definition students : store :=
  [ (1, {[ "name" := VStr "anurag adarsh"; "age" := VInt 20; "year" := VStr "year 26" ]});
    (2, {[ "name" := VStr "mohit"; "age" := VInt 22; "year" := VStr "year 26" ]}) ].

(** ** Handlers: state over [students], with exceptions *)

Inductive exc :=
| HTTPException (status_code : Z) (detail : string)
| KeyError.

(** A handler body runs against the current [students] and either returns
    a value or raises, leaving the dictionary as it then is. *)
Definition M (A : Type) : Type := store → (A + exc) * store.

#[global] Instance M_ret : MRet M := λ A a st, (inl a, st).
#[global] Instance M_bind : MBind M := λ A B k m st,
  match m st with
  | (inl a, st') => k a st'
  | (inr e, st') => (inr e, st')
  end.
#[global] Instance M_throw : MThrow exc M := λ A e st, (inr e, st).

Definition get_students : M store := λ st, (inl st, st).
Definition put_students (st' : store) : M unit := λ _, (inl tt, st').

(** [students[k]], raising [KeyError] on a missing key. *)
Definition students_getitem (k : Z) : M (gmap string value) :=
  st ← get_students;
  match PyDict.getitem k st with
  | Some d => mret d
  | None => mthrow KeyError
  end.

(** [d[f]] on a student dictionary. *)
Definition field_getitem (f : string) (d : gmap string value) : M value :=
  match d !! f with
  | Some v => mret v
  | None => mthrow KeyError
  end.

(** [students[k][f] = v]: the dictionary stored under [k] is changed in
    place. *)
Definition students_setfield (k : Z) (f : string) (v : value) : M unit :=
  d ← students_getitem k;
  st ← get_students;
  put_students (PyDict.setitem k (<[f := v]> d) st).

(** [students[k] = d] *)
Definition students_setitem (k : Z) (d : gmap string value) : M unit :=
  st ← get_students;
  put_students (PyDict.setitem k d st).

(** [del students[k]], raising [KeyError] on a missing key. *)
Definition students_delitem (k : Z) : M unit :=
  st ← get_students;
  if PyDict.contains k st then put_students (PyDict.delitem k st)
  else mthrow KeyError.

(** [for k in ks: body] followed by [after], where the body either
    returns from the function ([Some]) or falls through to the next
    round ([None]). *)
Fixpoint for_in {A} (ks : list Z) (body : Z → M (option A)) (after : M A) : M A :=
  match ks with
  | [] => after
  | k :: rest =>
      r ← body k;
      match r with
      | Some a => mret a
      | None => for_in rest body after
      end
  end.

(** [@app.get("/")] *)
Definition index : M (gmap string value) :=
  mret {[ "name" := VStr "First Data" ]}.

(** [@app.get("/get-student/{student_id}")] *)
Definition get_student (student_id : Z) : M (gmap string value) :=
  st ← get_students;
  if negb (PyDict.contains student_id st)
  then mthrow (HTTPException 404 "Student not found")
  else students_getitem student_id.

(** [@app.get("/get-by-name")] *)
Definition get_student_by_name (name : option string) (test : Z)
  : M (gmap string value) :=
  st ← get_students;
  for_in (PyDict.keys st)
    (λ student_id,
       d ← students_getitem student_id;
       n ← field_getitem "name" d;
       if py_eq n (of_opt_str name)
       then r ← students_getitem student_id; mret (Some r)
       else mret None)
    (mret {[ "Data" := VStr "Not found" ]}).

(** [@app.get("/get-by-name/{student_id}")]; the loop variable reuses the
    parameter's name. *)
Definition get_student_by_name_combine
    (student_id : Z) (name : option string) (test : Z)
  : M (gmap string value) :=
  st ← get_students;
  for_in (PyDict.keys st)
    (λ student_id,
       d ← students_getitem student_id;
       n ← field_getitem "name" d;
       if py_eq n (of_opt_str name)
       then r ← students_getitem student_id; mret (Some r)
       else mret None)
    (mret {[ "Data" := VStr "Not found" ]}).

(** [@app.post("/create-student/{student_id}")] *)
Definition create_student (student_id : Z) (student : Student.t)
  : M (gmap string value) :=
  st ← get_students;
  if PyDict.contains student_id st
  then mret {[ "Error" := VStr "Student exists" ]}
  else
    students_setitem student_id (Student.dict student);;
    students_getitem student_id.

(** [@app.put("/update-student/{student_id}")] *)
Definition update_student (student_id : Z) (student : UpdateStudent.t)
  : M (gmap string value) :=
  st ← get_students;
  if negb (PyDict.contains student_id st)
  then mret {[ "Error" := VStr "Students does not exits" ]}
  else
    match UpdateStudent.name student with
    | Some n => students_setfield student_id "name" (VStr n)
    | None => mret tt
    end;;
    match UpdateStudent.age student with
    | Some a => students_setfield student_id "age" (VInt a)
    | None => mret tt
    end;;
    match UpdateStudent.year student with
    | Some y => students_setfield student_id "year" (VStr y)
    | None => mret tt
    end;;
    students_getitem student_id.

(** [@app.delete("/delete-student/{student_id}")] *)
Definition delete_student (student_id : Z) : M (gmap string value) :=
  st ← get_students;
  if negb (PyDict.contains student_id st)
  then mret {[ "Error" := VStr "Student does not exists" ]}
  else
    students_delitem student_id;;
    mret {[ "Message" := VStr "Student deleted successfully" ]}.

(** ** The framework layer: validation, routing, responses *)

Inductive response :=
| JSONResponse (status_code : Z) (content : gmap string value)
| RequestValidationError
| InternalServerError.

Definition status_of (r : response) : Z :=
  match r with
  | JSONResponse s _ => s
  | RequestValidationError => 422
  | InternalServerError => 500
  end.

(** A returned dictionary is sent with status 200; an [HTTPException] is
    sent with its own status and the body [{"detail": ...}]; any other
    exception is a 500. *)
Definition respond (r : gmap string value + exc) : response :=
  match r with
  | inl d => JSONResponse 200 d
  | inr (HTTPException s detail) => JSONResponse s {[ "detail" := VStr detail ]}
  | inr KeyError => InternalServerError
  end.

(** A request whose path is one of the routes, with its integer path
    parameter, its query parameters ([None] when not given) and its body. *)
Inductive request :=
| GET_index
| GET_get_student (student_id : Z)
| GET_get_by_name (name : option string) (test : option Z)
| GET_get_by_name_id (student_id : Z) (name : option string) (test : option Z)
| POST_create_student (student_id : Z) (student : Student.t)
| PUT_update_student (student_id : Z) (body : UpdateStudent.body)
| DELETE_delete_student (student_id : Z).

(** [Path(..., gt=0, lt=4)] *)
Definition path_gt0_lt4 (student_id : Z) : bool :=
  (0 <? student_id) && (student_id <? 4).

(** Parameter validation, which picks the handler call to make, or
    [None] when the request is refused with 422.  It does not see the
    store. *)
Definition validate (rq : request) : option (M (gmap string value)) :=
  match rq with
  | GET_index => Some index
  | GET_get_student student_id =>
      if path_gt0_lt4 student_id then Some (get_student student_id) else None
  | GET_get_by_name name (Some test) => Some (get_student_by_name name test)
  | GET_get_by_name _ None => None
  | GET_get_by_name_id student_id name (Some test) =>
      Some (get_student_by_name_combine student_id name test)
  | GET_get_by_name_id _ _ None => None
  | POST_create_student student_id student =>
      Some (create_student student_id student)
  | PUT_update_student student_id body =>
      Some (update_student student_id (UpdateStudent.validate body))
  | DELETE_delete_student student_id => Some (delete_student student_id)
  end.

(** One request served against the current store. *)
Definition app (rq : request) (st : store) : response * store :=
  match validate rq with
  | None => (RequestValidationError, st)
  | Some handler => let '(r, st') := handler st in (respond r, st')
  end.

(** A sequence of requests, served in order from a given store. *)
Definition serve (rqs : list request) (st : store) : store :=
  foldl (λ st rq, (app rq st).2) st rqs.

(** The property a stored dictionary has when it is a complete student:
    exactly the keys [name], [age], [year], holding a [str], an [int] and
    a [str]. *)
Definition full_student (d : gmap string value) : Prop :=
  ∃ s, d = Student.dict s.

(** The store invariant: keys are unique and every value is a complete
    student. *)
Definition store_inv (st : store) : Prop :=
  PyDict.wf st ∧ Forall (λ kv, full_student kv.2) st.

(** No field of any stored dictionary holds [None]. *)
Definition no_None (st : store) : Prop :=
  ∀ k d f, PyDict.getitem k st = Some d → d !! f ≠ Some VNone.

(** The body in which every explicit [null] has been dropped. *)
Definition drop_null {A} (f : UpdateStudent.field A) : UpdateStudent.field A :=
  match f with
  | UpdateStudent.Null => UpdateStudent.Absent
  | _ => f
  end.

Definition drop_nulls (b : UpdateStudent.body) : UpdateStudent.body :=
  {| UpdateStudent.b_name := drop_null (UpdateStudent.b_name b);
     UpdateStudent.b_age := drop_null (UpdateStudent.b_age b);
     UpdateStudent.b_year := drop_null (UpdateStudent.b_year b) |}.

(** What a body field does to the stored field, in the words of the
    contract: a supplied value overwrites, anything else leaves the old
    value. *)
Definition merge_field {A} (inj : A → value) (f : option A)
    (key : string) (d : gmap string value) : gmap string value :=
  match f with
  | Some a => <[key := inj a]> d
  | None => d
  end.

Definition merge (u : UpdateStudent.t) (d : gmap string value)
  : gmap string value :=
  merge_field VStr (UpdateStudent.year u) "year"
    (merge_field VInt (UpdateStudent.age u) "age"
       (merge_field VStr (UpdateStudent.name u) "name" d)).

(** The query [name] equals the [name] field of an entry. *)
Definition name_matches (name : option string)
    (kv : Z * gmap string value) : Prop :=
  kv.2 !! "name" = Some (of_opt_str name).

#[global] Instance name_matches_dec name kv : Decision (name_matches name kv).
Proof. unfold name_matches. apply _. Defined.

(** The first entry, in iteration order, whose name matches; the body
    sent when there is none. *)
Definition first_match (name : option string) (st : store)
  : gmap string value :=
  match list_find (name_matches name) st with
  | Some (_, (_, d)) => d
  | None => {[ "Data" := VStr "Not found" ]}
  end.

(** The same request sent [n] times in a row. *)
Definition repeat_request (rq : request) (n : nat) (st : store) : store :=
  serve (replicate n rq) st.

(** The requests routed to the handlers that only read [students]: the
    four [@app.get] routes. *)
Definition is_read (rq : request) : bool :=
  match rq with
  | GET_index | GET_get_student _ | GET_get_by_name _ _
  | GET_get_by_name_id _ _ _ => true
  | POST_create_student _ _ | PUT_update_student _ _
  | DELETE_delete_student _ => false
  end.

(** * Facts about the ordered dictionary *)

Module PyDictFacts.
Import PyDict.

Section Facts.
Context {V : Type}.
Implicit Types (d : PyDict.t V) (k : Z) (v : V).

Lemma contains_true k d : contains k d = true ↔ is_Some (getitem k d).
Proof.
  unfold contains. destruct (getitem k d) as [v|]; split; intros H.
  - by eexists.
  - done.
  - done.
  - by destruct H.
Qed.

Lemma contains_false k d : contains k d = false ↔ getitem k d = None.
Proof. unfold contains. by destruct (getitem k d). Qed.

Lemma getitem_elem_of k v d : getitem k d = Some v → (k, v) ∈ d.
Proof.
  induction d as [|[k' v'] d IH]; simpl; [done|].
  case_decide as Hk.
  - intros [= ->]. subst. left.
  - intros H. right. by apply IH.
Qed.

Lemma getitem_None_keys k d : getitem k d = None ↔ k ∉ keys d.
Proof.
  unfold keys. induction d as [|[k' v'] d IH]; simpl.
  - split; [intros _; apply not_elem_of_nil | done].
  - rewrite not_elem_of_cons. case_decide as Hk; split.
    + done.
    + intros [? _]; done.
    + intros H. split; [done | by apply IH].
    + intros [_ H]. by apply IH.
Qed.

Lemma elem_of_getitem k v d : wf d → (k, v) ∈ d → getitem k d = Some v.
Proof.
  unfold wf, keys. induction d as [|[k' v'] d IH]; simpl.
  - intros _ H. by apply elem_of_nil in H.
  - rewrite NoDup_cons. intros [Hnotin Hnd] Hin.
    apply elem_of_cons in Hin as [[= -> ->] | Hin].
    + by rewrite decide_True.
    + case_decide as Hk.
      * subst. exfalso. apply Hnotin.
        apply list_elem_of_fmap. by exists (k', v).
      * by apply IH.
Qed.

Lemma getitem_setitem_eq k v d : getitem k (setitem k v d) = Some v.
Proof.
  induction d as [|[k' v'] d IH]; simpl.
  - by rewrite decide_True.
  - case_decide as Hk; simpl.
    + by rewrite decide_True.
    + by rewrite decide_False.
Qed.

Lemma getitem_setitem_ne k k' v d :
  k ≠ k' → getitem k' (setitem k v d) = getitem k' d.
Proof.
  intros Hne. induction d as [|[k0 v0] d IH]; simpl.
  - by rewrite decide_False.
  - case_decide as Hk; simpl.
    + subst. by rewrite !decide_False.
    + by rewrite IH.
Qed.

Lemma setitem_absent k v d :
  getitem k d = None → setitem k v d = (d ++ [(k, v)])%list.
Proof.
  induction d as [|[k0 v0] d IH]; simpl; [done|].
  case_decide as Hk; [done|]. intros H. by rewrite IH.
Qed.

Lemma setitem_same k v d : getitem k d = Some v → setitem k v d = d.
Proof.
  induction d as [|[k0 v0] d IH]; simpl; [done|].
  case_decide as Hk.
  - by intros [= ->].
  - intros H. by rewrite IH.
Qed.

Lemma setitem_setitem k v v' d :
  setitem k v' (setitem k v d) = setitem k v' d.
Proof.
  induction d as [|[k0 v0] d IH]; simpl.
  - by rewrite decide_True.
  - case_decide as Hk; simpl.
    + by rewrite decide_True.
    + by rewrite decide_False, IH.
Qed.

Lemma keys_setitem_present k v d :
  is_Some (getitem k d) → keys (setitem k v d) = keys d.
Proof.
  unfold keys. induction d as [|[k0 v0] d IH]; simpl.
  - by intros [? ?].
  - case_decide as Hk; simpl; [done|]. intros H. f_equal. by apply IH.
Qed.

Lemma getitem_delitem_eq k d : getitem k (delitem k d) = None.
Proof.
  unfold delitem. induction d as [|[k0 v0] d IH]; [done|].
  rewrite (filter_cons (λ kv : Z * V, kv.1 ≠ k)). simpl. case_decide as Hk; simpl; [|done].
  by rewrite decide_False.
Qed.

Lemma getitem_delitem_ne k k' d :
  k ≠ k' → getitem k' (delitem k d) = getitem k' d.
Proof.
  intros Hne. unfold delitem.
  induction d as [|[k0 v0] d IH]; [done|].
  rewrite (filter_cons (λ kv : Z * V, kv.1 ≠ k)). simpl. case_decide as Hk; simpl.
  - case_decide; [done | apply IH].
  - subst. rewrite decide_False by done. apply IH.
Qed.

Lemma delitem_absent k d : getitem k d = None → delitem k d = d.
Proof.
  unfold delitem. induction d as [|[k0 v0] d IH]; [done|].
  cbn [getitem]. destruct (decide (k = k0)) as [->|Hne]; [done|].
  intros H. rewrite (filter_cons (λ kv : Z * V, kv.1 ≠ k)).
  rewrite decide_True by (simpl; congruence). f_equal. by apply IH.
Qed.

Lemma delitem_sublist k d : sublist (delitem k d) d.
Proof. apply sublist_filter. Qed.

Lemma wf_setitem k v d : wf d → wf (setitem k v d).
Proof.
  intros Hwf. destruct (getitem k d) as [v0|] eqn:Hget.
  - unfold wf. by rewrite keys_setitem_present.
  - rewrite setitem_absent by done. unfold wf, keys.
    rewrite fmap_app. simpl. apply NoDup_app. split; [done|]. split.
    + intros x Hx Hx'. apply list_elem_of_singleton in Hx'. subst.
      by apply getitem_None_keys in Hget.
    + apply NoDup_singleton.
Qed.

Lemma wf_delitem k d : wf d → wf (delitem k d).
Proof.
  unfold wf, keys. intros Hwf.
  eapply sublist_NoDup; [done|]. apply fmap_sublist, delitem_sublist.
Qed.

Lemma Forall_setitem (P : Z * V → Prop) k v d :
  Forall P d → (∀ k', P (k', v)) → Forall P (setitem k v d).
Proof.
  intros Hd Hv. induction Hd as [|[k0 v0] d Hx Hd IH]; simpl.
  - by constructor.
  - case_decide; constructor; auto.
Qed.

Lemma Forall_delitem (P : Z * V → Prop) k d :
  Forall P d → Forall P (delitem k d).
Proof.
  rewrite !Forall_forall. intros Hd x Hx. apply Hd.
  unfold delitem in Hx. by apply list_elem_of_filter in Hx as [_ Hx].
Qed.
End Facts.
End PyDictFacts.

(** * The handlers as equations on the store *)

Ltac unfold_M :=
  unfold students_setfield, students_setitem, students_delitem,
    students_getitem, field_getitem, get_students, put_students,
    mbind, M_bind, mret, M_ret, mthrow, M_throw.

Section Handlers.
Import PyDict PyDictFacts.
Implicit Types (st : store) (d : gmap string value).

Lemma get_student_eq student_id st :
  get_student student_id st =
  (match getitem student_id st with
   | Some d => inl d
   | None => inr (HTTPException 404 "Student not found")
   end, st).
Proof.
  unfold get_student, contains. unfold_M.
  destruct (getitem student_id st) eqn:Hget; simpl; by rewrite ?Hget.
Qed.

Lemma create_student_eq student_id student st :
  create_student student_id student st =
  match getitem student_id st with
  | Some _ => (inl {[ "Error" := VStr "Student exists" ]}, st)
  | None => (inl (Student.dict student),
             (st ++ [(student_id, Student.dict student)])%list)
  end.
Proof.
  unfold create_student, contains. unfold_M.
  destruct (getitem student_id st) eqn:Hget; simpl; [done|].
  rewrite getitem_setitem_eq. by rewrite setitem_absent.
Qed.

Lemma students_setfield_eq student_id f v st d :
  getitem student_id st = Some d →
  students_setfield student_id f v st =
  (inl (), setitem student_id (<[f := v]> d) st).
Proof. intros Hget. unfold_M. by rewrite Hget. Qed.

Lemma update_student_absent student_id u st :
  getitem student_id st = None →
  update_student student_id u st =
  (inl {[ "Error" := VStr "Students does not exits" ]}, st).
Proof.
  intros Hget. unfold update_student, contains. unfold_M. by rewrite Hget.
Qed.

Lemma bind_get_students {B} (k : store → M B) st :
  (get_students ≫= k) st = k st st.
Proof. done. Qed.

(** One [if student.f is not None: students[id][f] = student.f]. *)
Lemma setfield_step {A B} (inj : A → value) (o : option A) key
    (k : M B) student_id st d :
  getitem student_id st = Some d →
  (match o with
   | Some a => students_setfield student_id key (inj a)
   | None => mret ()
   end;; k) st
  = k (setitem student_id (merge_field inj o key d) st).
Proof.
  intros Hget. destruct o as [a|]; unfold merge_field.
  - unfold mbind at 1, M_bind. by rewrite (students_setfield_eq _ _ _ _ d).
  - unfold mbind at 1, M_bind, mret, M_ret. by rewrite setitem_same.
Qed.

Lemma update_student_present student_id u st d :
  getitem student_id st = Some d →
  update_student student_id u st =
  (inl (merge u d), setitem student_id (merge u d) st).
Proof.
  intros Hget. unfold update_student. rewrite bind_get_students.
  unfold contains. rewrite Hget. cbn [negb].
  rewrite (setfield_step VStr _ "name" _ _ _ d) by done.
  rewrite (setfield_step VInt _ "age" _ _ _ _ (getitem_setitem_eq _ _ _)).
  rewrite setitem_setitem.
  rewrite (setfield_step VStr _ "year" _ _ _ _ (getitem_setitem_eq _ _ _)).
  rewrite setitem_setitem. unfold_M.
  by rewrite getitem_setitem_eq.
Qed.

Lemma for_in_cons {A} k (ks : list Z) (body : Z → M (option A)) after st :
  for_in (k :: ks) body after st =
  match body k st with
  | (inl (Some a), st') => (inl a, st')
  | (inl None, st') => for_in ks body after st'
  | (inr e, st') => (inr e, st')
  end.
Proof.
  cbn [for_in]. unfold mbind, M_bind.
  by destruct (body k st) as [[[a|]|e] st'].
Qed.

(** The scan of the two name look-ups, over a tail of the key list. *)
Lemma for_in_name_scan name st (l : store) :
  (∀ k d, (k, d) ∈ l → getitem k st = Some d) →
  Forall (λ kv, is_Some (kv.2 !! "name")) l →
  for_in (keys l)
    (λ student_id,
       d ← students_getitem student_id;
       n ← field_getitem "name" d;
       if py_eq n (of_opt_str name)
       then r ← students_getitem student_id; mret (Some r)
       else mret None)
    (mret {[ "Data" := VStr "Not found" ]}) st
  = (inl (first_match name l), st).
Proof.
  unfold first_match.
  match goal with |- _ → _ → for_in _ ?b _ _ = _ => set (body := b) end.
  induction l as [|[k d] l IH]; intros Hin Hname; [done|].
  apply Forall_cons in Hname as [[n Hn] Hname]. simpl in Hn.
  assert (getitem k st = Some d) as Hk by (apply Hin; left).
  assert (∀ k' d', (k', d') ∈ l → getitem k' st = Some d') as Hin'
    by (intros; apply Hin; by right).
  specialize (IH Hin' Hname).
  assert (body k st =
          (inl (if decide (name_matches name (k, d)) then Some d else None),
           st)) as Hbody.
  { subst body. cbv beta. unfold_M. rewrite Hk, Hn. unfold py_eq.
    destruct (decide (name_matches name (k, d))) as [Hm|Hm];
      unfold name_matches in Hm; simpl in Hm; rewrite Hn in Hm.
    - rewrite bool_decide_eq_true_2 by congruence. by rewrite Hk.
    - by rewrite bool_decide_eq_false_2 by congruence. }
  change (keys ((k, d) :: l)) with (k :: keys l).
  rewrite for_in_cons, Hbody. cbn [list_find].
  destruct (decide (name_matches name (k, d))); [done|].
  rewrite IH.
  by destruct (list_find (name_matches name) l) as [[? []]|].
Qed.

Lemma get_student_by_name_eq name test st :
  wf st → Forall (λ kv, is_Some (kv.2 !! "name")) st →
  get_student_by_name name test st = (inl (first_match name st), st).
Proof.
  intros Hwf Hname. unfold get_student_by_name.
  rewrite bind_get_students. apply for_in_name_scan; [|done].
  intros k d. by apply elem_of_getitem.
Qed.

Lemma delete_student_eq student_id st :
  delete_student student_id st =
  match getitem student_id st with
  | Some _ => (inl {[ "Message" := VStr "Student deleted successfully" ]},
               delitem student_id st)
  | None => (inl {[ "Error" := VStr "Student does not exists" ]}, st)
  end.
Proof.
  unfold delete_student. unfold_M. unfold contains.
  destruct (getitem student_id st) eqn:Hget; simpl; by rewrite ?Hget.
Qed.
End Handlers.

(** * The endpoints *)

Section Endpoints.
Import PyDict PyDictFacts.
Implicit Types (st : store) (d : gmap string value).

Lemma path_gt0_lt4_true student_id :
  path_gt0_lt4 student_id = true ↔ 0 < student_id < 4.
Proof. unfold path_gt0_lt4. rewrite andb_true_iff, !Z.ltb_lt. lia. Qed.

Lemma path_gt0_lt4_false student_id :
  path_gt0_lt4 student_id = false ↔ ¬ (0 < student_id < 4).
Proof. rewrite <- path_gt0_lt4_true. by destruct (path_gt0_lt4 _). Qed.

Lemma app_get_student_out student_id st :
  ¬ (0 < student_id < 4) →
  app (GET_get_student student_id) st = (RequestValidationError, st).
Proof.
  intros Hout. apply path_gt0_lt4_false in Hout.
  unfold app. simpl. by rewrite Hout.
Qed.

Lemma app_get_student_in student_id st :
  0 < student_id < 4 →
  app (GET_get_student student_id) st =
  (match getitem student_id st with
   | Some d => JSONResponse 200 d
   | None => JSONResponse 404 {[ "detail" := VStr "Student not found" ]}
   end, st).
Proof.
  intros Hin. apply path_gt0_lt4_true in Hin.
  unfold app. simpl. rewrite Hin, get_student_eq.
  by destruct (getitem student_id st).
Qed.

Lemma app_create_student student_id student st :
  app (POST_create_student student_id student) st =
  match getitem student_id st with
  | Some _ => (JSONResponse 200 {[ "Error" := VStr "Student exists" ]}, st)
  | None => (JSONResponse 200 (Student.dict student),
             (st ++ [(student_id, Student.dict student)])%list)
  end.
Proof.
  unfold app. simpl. rewrite create_student_eq.
  by destruct (getitem student_id st).
Qed.

Lemma app_update_student_present student_id body st d :
  getitem student_id st = Some d →
  app (PUT_update_student student_id body) st =
  (JSONResponse 200 (merge (UpdateStudent.validate body) d),
   setitem student_id (merge (UpdateStudent.validate body) d) st).
Proof.
  intros Hget. unfold app. simpl.
  by rewrite (update_student_present _ _ _ d).
Qed.

Lemma app_update_student_absent student_id body st :
  getitem student_id st = None →
  app (PUT_update_student student_id body) st =
  (JSONResponse 200 {[ "Error" := VStr "Students does not exits" ]}, st).
Proof.
  intros Hget. unfold app. simpl. by rewrite update_student_absent.
Qed.

Lemma app_delete_student student_id st :
  app (DELETE_delete_student student_id) st =
  match getitem student_id st with
  | Some _ =>
      (JSONResponse 200 {[ "Message" := VStr "Student deleted successfully" ]},
       delitem student_id st)
  | None =>
      (JSONResponse 200 {[ "Error" := VStr "Student does not exists" ]}, st)
  end.
Proof.
  unfold app. simpl. rewrite delete_student_eq.
  by destruct (getitem student_id st).
Qed.

Lemma app_get_by_name name test st :
  wf st → Forall (λ kv, is_Some (kv.2 !! "name")) st →
  app (GET_get_by_name name (Some test)) st =
  (JSONResponse 200 (first_match name st), st).
Proof.
  intros Hwf Hname. unfold app. simpl.
  by rewrite get_student_by_name_eq.
Qed.

Lemma getitem_app_last student_id d st :
  getitem student_id st = None →
  getitem student_id (st ++ [(student_id, d)]) = Some d.
Proof. intros Hget. by rewrite <- setitem_absent, getitem_setitem_eq. Qed.

Lemma getitem_app_last_ne k student_id d st :
  k ≠ student_id →
  getitem k (st ++ [(student_id, d)]) = getitem k st.
Proof.
  intros Hne. induction st as [|[k0 d0] st IH]; simpl.
  - by rewrite decide_False.
  - by rewrite IH.
Qed.

Lemma Student_dict_inj s s' : Student.dict s = Student.dict s' → s = s'.
Proof.
  destruct s as [n a y], s' as [n' a' y']. unfold Student.dict. simpl.
  intros Heq.
  assert (∀ f, ({[ "name" := VStr n; "age" := VInt a; "year" := VStr y ]}
                  : gmap string value) !! f
               = ({[ "name" := VStr n'; "age" := VInt a'; "year" := VStr y' ]}
                  : gmap string value) !! f) as Hf
    by (intros f; by rewrite Heq).
  pose proof (Hf "name") as H1. pose proof (Hf "age") as H2.
  pose proof (Hf "year") as H3.
  vm_compute in H1, H2, H3. congruence.
Qed.
End Endpoints.

(** * The contract of the service *)

(** C1. [GET /get-student/{student_id}]: the request is refused with 422
    exactly when [student_id] is outside the open interval (0, 4), and then
    no handler is chosen and the answer is the same whatever the store
    holds; inside the interval the answer is 404 with
    [{"detail": "Student not found"}] exactly when the id is not in the
    store, and otherwise the stored dictionary with 200.  The store is left
    as it was. *)
Theorem get_student_contract (student_id : Z) (st : store) :
  let rsp := (app (GET_get_student student_id) st).1 in
  (status_of rsp = 422 ↔ ¬ (0 < student_id < 4))
  ∧ (¬ (0 < student_id < 4) →
     validate (GET_get_student student_id) = None
     ∧ ∀ st', app (GET_get_student student_id) st' = (RequestValidationError, st'))
  ∧ (0 < student_id < 4 →
     (rsp = JSONResponse 404 {[ "detail" := VStr "Student not found" ]}
      ↔ PyDict.getitem student_id st = None)
     ∧ (∀ d, PyDict.getitem student_id st = Some d → rsp = JSONResponse 200 d))
  ∧ (app (GET_get_student student_id) st).2 = st.
Proof.
  intros rsp. subst rsp.
  destruct (decide (0 < student_id < 4)) as [Hin|Hout].
  - rewrite app_get_student_in by done. simpl.
    repeat split; try done.
    + destruct (PyDict.getitem student_id st); simpl; intros [=].
    + destruct (PyDict.getitem student_id st); [intros [=] | done].
    + intros Hget. by rewrite Hget.
    + intros d Hget. by rewrite Hget.
  - rewrite app_get_student_out by done. simpl.
    repeat split; try done.
    + simpl. apply path_gt0_lt4_false in Hout. by rewrite Hout.
    + intros st'. by apply app_get_student_out.
Qed.

Lemma get_student_contract_witness :
  (app (GET_get_student 999) students).1 = RequestValidationError
  ∧ (app (GET_get_student 3) students).1
    = JSONResponse 404 {[ "detail" := VStr "Student not found" ]}.
Proof.
  split.
  - destruct (get_student_contract 999 students) as (_ & Hout & _).
    destruct Hout as [_ Hout]; [lia|]. by rewrite Hout.
  - destruct (get_student_contract 3 students) as (_ & _ & Hin & _).
    destruct Hin as [Hin _]; [lia|]. by apply Hin.
Defined.

(** C3. [POST /create-student/{student_id}] on an id that is already in
    the store answers [{"Error": "Student exists"}] with status 200 and
    leaves the whole store, and so the record under that id, as it was. *)
Theorem create_student_existing (student_id : Z) (student : Student.t)
    (st : store) :
  PyDict.contains student_id st = true →
  let '(rsp, st') := app (POST_create_student student_id student) st in
  rsp = JSONResponse 200 {[ "Error" := VStr "Student exists" ]}
  ∧ status_of rsp = 200
  ∧ st' = st
  ∧ PyDict.getitem student_id st' = PyDict.getitem student_id st.
Proof.
  intros Hin. apply PyDictFacts.contains_true in Hin as [d Hget].
  rewrite app_create_student, Hget. done.
Qed.

Lemma create_student_existing_witness :
  app (POST_create_student 1 {| Student.name := "x"; Student.age := 1;
                                Student.year := "y" |}) students
  = (JSONResponse 200 {[ "Error" := VStr "Student exists" ]}, students).
Proof.
  pose proof (create_student_existing 1
                {| Student.name := "x"; Student.age := 1; Student.year := "y" |}
                students eq_refl) as H.
  destruct (app _ students) as [rsp st']. destruct H as (-> & _ & -> & _).
  reflexivity.
Defined.

(** C5. [DELETE /delete-student/{student_id}]: on an id that is not in the
    store the answer is [{"Error": "Student does not exists"}] with 200 and
    the store is unchanged; on an id that is in the store the entry is
    removed, every other entry is as before, and the answer is
    [{"Message": "Student deleted successfully"}] with 200; once the id has
    been deleted, every further delete of it gives the "does not exists"
    answer and changes nothing. *)
Theorem delete_student_contract (student_id : Z) (st : store) :
  (PyDict.contains student_id st = false →
   app (DELETE_delete_student student_id) st
   = (JSONResponse 200 {[ "Error" := VStr "Student does not exists" ]}, st))
  ∧ (PyDict.contains student_id st = true →
     ∃ st',
       app (DELETE_delete_student student_id) st
       = (JSONResponse 200 {[ "Message" := VStr "Student deleted successfully" ]},
          st')
       ∧ PyDict.contains student_id st' = false
       ∧ (∀ k, k ≠ student_id → PyDict.getitem k st' = PyDict.getitem k st)
       ∧ sublist (PyDict.keys st') (PyDict.keys st))
  ∧ (∀ n : nat,
       let st1 := (app (DELETE_delete_student student_id) st).2 in
       let stn := repeat_request (DELETE_delete_student student_id) n st1 in
       app (DELETE_delete_student student_id) stn
       = (JSONResponse 200 {[ "Error" := VStr "Student does not exists" ]}, stn)
       ∧ stn = st1).
Proof.
  split; [|split].
  - intros Hout. apply PyDictFacts.contains_false in Hout.
    by rewrite app_delete_student, Hout.
  - intros Hin. apply PyDictFacts.contains_true in Hin as [d Hget].
    exists (PyDict.delitem student_id st).
    rewrite app_delete_student, Hget. repeat split.
    + apply PyDictFacts.contains_false, PyDictFacts.getitem_delitem_eq.
    + intros k Hk. by apply PyDictFacts.getitem_delitem_ne.
    + apply fmap_sublist, PyDictFacts.delitem_sublist.
  - intros n st1 stn.
    assert (PyDict.getitem student_id st1 = None) as Hgone.
    { subst st1. rewrite app_delete_student.
      destruct (PyDict.getitem student_id st) eqn:Hget; simpl; [|done].
      apply PyDictFacts.getitem_delitem_eq. }
    assert (stn = st1) as ->; [|by rewrite app_delete_student, Hgone].
    subst stn. unfold repeat_request, serve. clear -Hgone.
    induction n as [|n IH]; simpl; [done|].
    by rewrite app_delete_student, Hgone.
Qed.

Lemma delete_student_contract_witness :
  (app (DELETE_delete_student 7) students).1
  = JSONResponse 200 {[ "Error" := VStr "Student does not exists" ]}
  ∧ ∃ st', (app (DELETE_delete_student 2) students).2 = st'
           ∧ PyDict.contains 2 st' = false.
Proof.
  split.
  - destruct (delete_student_contract 7 students) as (Hout & _).
    by rewrite Hout.
  - destruct (delete_student_contract 2 students) as (_ & Hin & _).
    destruct Hin as (st' & Heq & Hgone & _); [reflexivity|].
    exists st'. by rewrite Heq.
Defined.

(** C6. [GET /get-by-name/{student_id}] answers exactly as [GET /get-by-name]
    does for the same [name] and store: the two handlers are the same
    function of [name], whatever [student_id] and [test] are; with [test]
    given, the answer of either endpoint does not depend on [test] or on
    [student_id]; without [test] both are refused with 422. *)
Theorem get_by_name_combine_same (st : store) (name : option string)
    (student_id : Z) :
  (∀ test test' : Z,
     get_student_by_name_combine student_id name test
     = get_student_by_name name test')
  ∧ (∀ test : option Z,
       app (GET_get_by_name_id student_id name test) st
       = app (GET_get_by_name name test) st)
  ∧ (∀ (student_id' test test' : Z),
       app (GET_get_by_name_id student_id name (Some test)) st
       = app (GET_get_by_name_id student_id' name (Some test')) st
       ∧ app (GET_get_by_name name (Some test)) st
         = app (GET_get_by_name name (Some test')) st)
  ∧ app (GET_get_by_name_id student_id name None) st
    = (RequestValidationError, st)
  ∧ app (GET_get_by_name name None) st = (RequestValidationError, st).
Proof.
  split; [reflexivity|]. split; [intros [test|]; reflexivity|].
  split; [split; reflexivity|]. split; reflexivity.
Qed.

(** C7. For an id in (0, 4) that is not in the store and a complete student
    body, [POST /create-student/{student_id}] answers the stored record with
    200, and [GET /get-student/{student_id}] right after answers that same
    record with 200; the record read back determines the student that was
    sent. *)
Theorem create_then_get (student_id : Z) (student : Student.t) (st : store) :
  0 < student_id < 4 →
  PyDict.contains student_id st = false →
  let '(rsp1, st1) := app (POST_create_student student_id student) st in
  rsp1 = JSONResponse 200 (Student.dict student)
  ∧ app (GET_get_student student_id) st1
    = (JSONResponse 200 (Student.dict student), st1)
  ∧ (∀ student',
       app (GET_get_student student_id) st1
       = (JSONResponse 200 (Student.dict student'), st1) →
       student' = student).
Proof.
  intros Hin Hout. apply PyDictFacts.contains_false in Hout.
  rewrite app_create_student, Hout.
  rewrite app_get_student_in by done.
  rewrite getitem_app_last by done.
  repeat split. intros student' Heq. apply Student_dict_inj. congruence.
Qed.

Lemma create_then_get_witness :
  let s := {| Student.name := "ravi"; Student.age := 19;
              Student.year := "year 27" |} in
  app (GET_get_student 3) (app (POST_create_student 3 s) students).2
  = (JSONResponse 200 (Student.dict s),
     (app (POST_create_student 3 s) students).2).
Proof.
  intros s.
  pose proof (create_then_get 3 s students ltac:(lia) eq_refl) as H.
  destruct (app (POST_create_student 3 s) students) as [rsp1 st1].
  destruct H as (_ & H & _). exact H.
Defined.

(** ** Partial update *)

Section Merge.
Implicit Types (u : UpdateStudent.t) (d : gmap string value).

Lemma merge_lookup_name u d :
  merge u d !! "name" =
  match UpdateStudent.name u with
  | Some n => Some (VStr n)
  | None => d !! "name"
  end.
Proof.
  unfold merge, merge_field.
  destruct u as [[n|] [a|] [y|]]; simpl; by simplify_map_eq.
Qed.

Lemma merge_lookup_age u d :
  merge u d !! "age" =
  match UpdateStudent.age u with
  | Some a => Some (VInt a)
  | None => d !! "age"
  end.
Proof.
  unfold merge, merge_field.
  destruct u as [[n|] [a|] [y|]]; simpl; by simplify_map_eq.
Qed.

Lemma merge_lookup_year u d :
  merge u d !! "year" =
  match UpdateStudent.year u with
  | Some y => Some (VStr y)
  | None => d !! "year"
  end.
Proof.
  unfold merge, merge_field.
  destruct u as [[n|] [a|] [y|]]; simpl; by simplify_map_eq.
Qed.

Lemma merge_lookup_other u d f :
  f ≠ "name" → f ≠ "age" → f ≠ "year" → merge u d !! f = d !! f.
Proof.
  intros H1 H2 H3. unfold merge, merge_field.
  destruct u as [[n|] [a|] [y|]]; simpl; by simplify_map_eq.
Qed.

(** A partial update of a complete student is a complete student. *)
Lemma merge_dict u s :
  merge u (Student.dict s) =
  Student.dict
    {| Student.name := default (Student.name s) (UpdateStudent.name u);
       Student.age := default (Student.age s) (UpdateStudent.age u);
       Student.year := default (Student.year s) (UpdateStudent.year u) |}.
Proof.
  apply map_eq. intros f.
  destruct (decide (f = "name")) as [->|Hn].
  { rewrite merge_lookup_name. by destruct (UpdateStudent.name u). }
  destruct (decide (f = "age")) as [->|Ha].
  { rewrite merge_lookup_age. by destruct (UpdateStudent.age u). }
  destruct (decide (f = "year")) as [->|Hy].
  { rewrite merge_lookup_year. by destruct (UpdateStudent.year u). }
  rewrite merge_lookup_other by done.
  unfold Student.dict. by simplify_map_eq.
Qed.

Lemma merge_no_None u d f :
  d !! f ≠ Some VNone → merge u d !! f ≠ Some VNone.
Proof.
  intros Hd.
  destruct (decide (f = "name")) as [->|Hn].
  { rewrite merge_lookup_name. by destruct (UpdateStudent.name u). }
  destruct (decide (f = "age")) as [->|Ha].
  { rewrite merge_lookup_age. by destruct (UpdateStudent.age u). }
  destruct (decide (f = "year")) as [->|Hy].
  { rewrite merge_lookup_year. by destruct (UpdateStudent.year u). }
  by rewrite merge_lookup_other.
Qed.

Lemma validate_drop_nulls body :
  UpdateStudent.validate (drop_nulls body) = UpdateStudent.validate body.
Proof. by destruct body as [[| |n] [| |a] [| |y]]. Qed.
End Merge.

(** C2. [PUT /update-student/{student_id}] on an id that is in the store:
    each of [name], [age], [year] that the body gives a value for is
    overwritten with that value, each one the body leaves out keeps its old
    value, nothing else in the record and no other entry of the store
    changes, the keys keep their order, and the answer is the merged record
    with 200.  On the start-up store, the body [{"age": 99}] sent to id 1
    changes the age of record 1 and nothing else. *)
Theorem update_student_merges :
  (∀ (student_id : Z) (body : UpdateStudent.body) (st : store)
     (d : gmap string value),
     PyDict.getitem student_id st = Some d →
     ∃ d' st',
       app (PUT_update_student student_id body) st = (JSONResponse 200 d', st')
       ∧ PyDict.getitem student_id st' = Some d'
       ∧ (∀ n, UpdateStudent.b_name body = UpdateStudent.Present n →
               d' !! "name" = Some (VStr n))
       ∧ (UpdateStudent.b_name body = UpdateStudent.Absent →
          d' !! "name" = d !! "name")
       ∧ (∀ a, UpdateStudent.b_age body = UpdateStudent.Present a →
               d' !! "age" = Some (VInt a))
       ∧ (UpdateStudent.b_age body = UpdateStudent.Absent →
          d' !! "age" = d !! "age")
       ∧ (∀ y, UpdateStudent.b_year body = UpdateStudent.Present y →
               d' !! "year" = Some (VStr y))
       ∧ (UpdateStudent.b_year body = UpdateStudent.Absent →
          d' !! "year" = d !! "year")
       ∧ (∀ f, f ≠ "name" → f ≠ "age" → f ≠ "year" → d' !! f = d !! f)
       ∧ (∀ k, k ≠ student_id → PyDict.getitem k st' = PyDict.getitem k st)
       ∧ PyDict.keys st' = PyDict.keys st)
  ∧ app (PUT_update_student 1
           {| UpdateStudent.b_name := UpdateStudent.Absent;
              UpdateStudent.b_age := UpdateStudent.Present 99;
              UpdateStudent.b_year := UpdateStudent.Absent |}) students
    = (JSONResponse 200
         {[ "name" := VStr "anurag adarsh"; "age" := VInt 99;
            "year" := VStr "year 26" ]},
       [ (1, {[ "name" := VStr "anurag adarsh"; "age" := VInt 99;
                "year" := VStr "year 26" ]});
         (2, {[ "name" := VStr "mohit"; "age" := VInt 22;
                "year" := VStr "year 26" ]}) ]).
Proof.
  split; [|by vm_compute].
  intros student_id body st d Hget.
  exists (merge (UpdateStudent.validate body) d),
    (PyDict.setitem student_id (merge (UpdateStudent.validate body) d) st).
  split; [by apply app_update_student_present|].
  split; [apply PyDictFacts.getitem_setitem_eq|].
  rewrite merge_lookup_name, merge_lookup_age, merge_lookup_year.
  unfold UpdateStudent.validate. simpl.
  repeat split.
  - by intros n ->.
  - by intros ->.
  - by intros a ->.
  - by intros ->.
  - by intros y ->.
  - by intros ->.
  - intros f. apply merge_lookup_other.
  - intros k Hk. by apply PyDictFacts.getitem_setitem_ne.
  - apply PyDictFacts.keys_setitem_present. by rewrite Hget.
Qed.

Lemma update_student_merges_witness :
  ∃ d' st',
    app (PUT_update_student 2
           {| UpdateStudent.b_name := UpdateStudent.Present "mohit k";
              UpdateStudent.b_age := UpdateStudent.Absent;
              UpdateStudent.b_year := UpdateStudent.Absent |}) students
    = (JSONResponse 200 d', st')
    ∧ d' !! "name" = Some (VStr "mohit k")
    ∧ d' !! "age" = Some (VInt 22).
Proof.
  destruct (proj1 update_student_merges 2
              {| UpdateStudent.b_name := UpdateStudent.Present "mohit k";
                 UpdateStudent.b_age := UpdateStudent.Absent;
                 UpdateStudent.b_year := UpdateStudent.Absent |}
              students _ eq_refl)
    as (d' & st' & Happ & _ & Hn & _ & _ & Ha & _).
  exists d', st'. split; [exact Happ|]. split.
  - by apply Hn.
  - by rewrite Ha.
Defined.

(** C4. [GET /get-by-name] with [test] given, on a store whose keys are
    unique and whose records all have a [name]: the answer is, with status
    200, the record of the first entry in iteration order whose [name]
    equals the query [name]; when no entry matches, and so in particular
    when [name] is not given and every stored name is a string, the answer
    is [{"Data": "Not found"}], again with status 200; the answer is either
    that body or one single record of the store, and the store is left as it
    was. *)
Theorem get_by_name_first_match (st : store) (name : option string)
    (test : Z) :
  PyDict.wf st →
  Forall (λ kv, is_Some (kv.2 !! "name")) st →
  let out := app (GET_get_by_name name (Some test)) st in
  (∀ (i : nat) k d,
     st !! i = Some (k, d) →
     name_matches name (k, d) →
     (∀ (j : nat) kv, st !! j = Some kv → (j < i)%nat → ¬ name_matches name kv) →
     out = (JSONResponse 200 d, st))
  ∧ ((∀ kv, kv ∈ st → ¬ name_matches name kv) →
     out = (JSONResponse 200 {[ "Data" := VStr "Not found" ]}, st))
  ∧ (name = None →
     (∀ kv, kv ∈ st → ∃ s, kv.2 !! "name" = Some (VStr s)) →
     out = (JSONResponse 200 {[ "Data" := VStr "Not found" ]}, st))
  ∧ status_of out.1 = 200
  ∧ (out.1 = JSONResponse 200 {[ "Data" := VStr "Not found" ]}
     ∨ ∃ k d, (k, d) ∈ st ∧ out.1 = JSONResponse 200 d)
  ∧ out.2 = st.
Proof.
  intros Hwf Hname out. subst out. rewrite app_get_by_name by done.
  unfold first_match.
  assert (∀ kvs : store,
            (∀ kv, kv ∈ kvs → ¬ name_matches name kv) →
            list_find (name_matches name) kvs = None) as Hnone.
  { intros kvs Hno. by apply list_find_None, Forall_forall. }
  split; [|split; [|split; [|split; [|split]]]].
  - intros i k d Hi Hm Hfirst.
    assert (list_find (name_matches name) st = Some (i, (k, d))) as ->
      by (by apply list_find_Some).
    done.
  - intros Hno. by rewrite Hnone.
  - intros -> Hstr. rewrite Hnone; [done|].
    intros kv Hkv. destruct (Hstr kv Hkv) as [s Hs].
    unfold name_matches. rewrite Hs. simpl. congruence.
  - done.
  - destruct (list_find (name_matches name) st) as [[i [k d]]|] eqn:Hfind.
    + right. exists k, d. split; [|done].
      apply list_find_Some in Hfind as (Hi & _).
      by eapply list_elem_of_lookup_2.
    + by left.
  - done.
Qed.

Lemma get_by_name_first_match_witness :
  app (GET_get_by_name (Some "mohit") (Some 1)) students
  = (JSONResponse 200
       {[ "name" := VStr "mohit"; "age" := VInt 22; "year" := VStr "year 26" ]},
     students)
  ∧ app (GET_get_by_name (Some "zzz") (Some 1)) students
    = (JSONResponse 200 {[ "Data" := VStr "Not found" ]}, students).
Proof.
  assert (PyDict.wf students) as Hwf.
  { unfold PyDict.wf, PyDict.keys, students. simpl.
    apply NoDup_cons. split; [by intros [= ]%list_elem_of_singleton|].
    apply NoDup_singleton. }
  assert (Forall (λ kv : Z * gmap string value, is_Some (kv.2 !! "name"))
            students) as Hname.
  { unfold students. repeat constructor; simpl; by eexists. }
  split.
  - destruct (get_by_name_first_match students (Some "mohit") 1 Hwf Hname)
      as (Hfirst & _).
    apply (Hfirst 1%nat 2); [reflexivity | reflexivity |].
    intros j kv Hj Hlt. destruct j as [|j]; [|lia].
    injection Hj as <-. unfold name_matches. simpl. by vm_compute.
  - destruct (get_by_name_first_match students (Some "zzz") 1 Hwf Hname)
      as (_ & Hno & _).
    apply Hno. intros kv Hkv. unfold name_matches.
    apply elem_of_cons in Hkv as [->|Hkv]; [by vm_compute|].
    apply list_elem_of_singleton in Hkv as ->. by vm_compute.
Defined.

(** C10. [PUT /update-student/{student_id}]: a body field given as an
    explicit [null] validates to the same [None] as a missing field, so the
    handler gets the same argument and the request has the same outcome as
    the one with the [null]s left out; on an id in the store a [null] field
    leaves the stored value as it was; and an update never brings a [None]
    into a store that had none. *)
Theorem update_null_is_absent (student_id : Z) (body : UpdateStudent.body)
    (st : store) :
  UpdateStudent.validate body = UpdateStudent.validate (drop_nulls body)
  ∧ app (PUT_update_student student_id body) st
    = app (PUT_update_student student_id (drop_nulls body)) st
  ∧ (∀ d, PyDict.getitem student_id st = Some d →
       ∃ d' st',
         app (PUT_update_student student_id body) st
         = (JSONResponse 200 d', st')
         ∧ PyDict.getitem student_id st' = Some d'
         ∧ (UpdateStudent.b_name body = UpdateStudent.Null →
            d' !! "name" = d !! "name")
         ∧ (UpdateStudent.b_age body = UpdateStudent.Null →
            d' !! "age" = d !! "age")
         ∧ (UpdateStudent.b_year body = UpdateStudent.Null →
            d' !! "year" = d !! "year"))
  ∧ (no_None st → no_None (app (PUT_update_student student_id body) st).2).
Proof.
  split; [by rewrite validate_drop_nulls|].
  split; [unfold app; simpl; by rewrite validate_drop_nulls|].
  split.
  - intros d Hget.
    exists (merge (UpdateStudent.validate body) d),
      (PyDict.setitem student_id (merge (UpdateStudent.validate body) d) st).
    split; [by apply app_update_student_present|].
    split; [apply PyDictFacts.getitem_setitem_eq|].
    rewrite merge_lookup_name, merge_lookup_age, merge_lookup_year.
    unfold UpdateStudent.validate. simpl.
    repeat split; by intros ->.
  - intros Hno. destruct (PyDict.getitem student_id st) as [d|] eqn:Hget.
    + rewrite (app_update_student_present _ _ _ d) by done. simpl.
      intros k d0 f Hk. destruct (decide (k = student_id)) as [->|Hne].
      * rewrite PyDictFacts.getitem_setitem_eq in Hk. injection Hk as <-.
        apply merge_no_None. by eapply Hno.
      * rewrite PyDictFacts.getitem_setitem_ne in Hk by done.
        by eapply Hno.
    + by rewrite app_update_student_absent.
Qed.

Lemma update_null_is_absent_witness :
  ∃ d',
    (app (PUT_update_student 1
            {| UpdateStudent.b_name := UpdateStudent.Null;
               UpdateStudent.b_age := UpdateStudent.Present 30;
               UpdateStudent.b_year := UpdateStudent.Null |}) students).1
    = JSONResponse 200 d'
    ∧ d' !! "name" = Some (VStr "anurag adarsh").
Proof.
  destruct (update_null_is_absent 1
              {| UpdateStudent.b_name := UpdateStudent.Null;
                 UpdateStudent.b_age := UpdateStudent.Present 30;
                 UpdateStudent.b_year := UpdateStudent.Null |} students)
    as (_ & _ & Hnull & _).
  destruct (Hnull _ eq_refl) as (d' & st' & Happ & _ & Hn & _).
  exists d'. split; [by rewrite Happ|]. by rewrite Hn.
Defined.

(** ** The store invariant *)

Section Invariant.
Import PyDict PyDictFacts.

Lemma students_wf : wf students.
Proof.
  unfold wf, keys, students. simpl.
  apply NoDup_cons. split; [by intros [= ]%list_elem_of_singleton|].
  apply NoDup_singleton.
Qed.

(** Establish: the start-up store satisfies the invariant. *)
Lemma students_inv : store_inv students.
Proof.
  split; [apply students_wf|]. unfold students.
  repeat constructor; simpl.
  - by exists {| Student.name := "anurag adarsh"; Student.age := 20;
                 Student.year := "year 26" |}.
  - by exists {| Student.name := "mohit"; Student.age := 22;
                 Student.year := "year 26" |}.
Qed.

Lemma full_student_has_name d : full_student d → is_Some (d !! "name").
Proof. intros [s ->]. unfold Student.dict. by simplify_map_eq. Qed.

Lemma store_inv_has_name st :
  store_inv st → Forall (λ kv, is_Some (kv.2 !! "name")) st.
Proof.
  intros [_ Hfull]. eapply Forall_impl; [done|].
  intros kv. apply full_student_has_name.
Qed.

Lemma store_inv_getitem st k d :
  store_inv st → getitem k st = Some d → full_student d.
Proof.
  intros [_ Hfull] Hget. apply getitem_elem_of in Hget.
  rewrite Forall_forall in Hfull. by apply (Hfull (k, d)).
Qed.

(** Preserve: every request keeps the invariant. *)
Lemma app_store_inv rq st : store_inv st → store_inv (app rq st).2.
Proof.
  intros Hinv. pose proof Hinv as [Hwf Hfull].
  destruct rq as [|student_id|name [test|]|student_id name [test|]
                  |student_id student|student_id body|student_id].
  - done.
  - destruct (decide (0 < student_id < 4)).
    + by rewrite app_get_student_in.
    + by rewrite app_get_student_out.
  - rewrite app_get_by_name; [done..|]. by apply store_inv_has_name.
  - done.
  - change (app (GET_get_by_name_id student_id name (Some test)) st)
      with (app (GET_get_by_name name (Some test)) st).
    rewrite app_get_by_name; [done..|]. by apply store_inv_has_name.
  - done.
  - rewrite app_create_student.
    destruct (getitem student_id st) eqn:Hget; [done|]. simpl.
    rewrite <- (setitem_absent _ _ _ Hget). split.
    + by apply wf_setitem.
    + apply Forall_setitem; [done|]. intros k'. by exists student.
  - destruct (getitem student_id st) as [d|] eqn:Hget.
    + rewrite (app_update_student_present _ _ _ d) by done. simpl.
      destruct (store_inv_getitem st student_id d Hinv Hget) as [s ->].
      split.
      * by apply wf_setitem.
      * apply Forall_setitem; [done|]. intros k'. simpl.
        rewrite merge_dict. by eexists.
    + by rewrite app_update_student_absent.
  - rewrite app_delete_student.
    destruct (getitem student_id st) eqn:Hget; [|done]. simpl. split.
    + by apply wf_delitem.
    + by apply Forall_delitem.
Qed.

Lemma serve_store_inv rqs st : store_inv st → store_inv (serve rqs st).
Proof.
  revert st. unfold serve.
  induction rqs as [|rq rqs IH]; intros st Hinv; simpl; [done|].
  by apply IH, app_store_inv.
Qed.
End Invariant.

(** C8. The start-up store holds ids 1 and 2 and satisfies the invariant;
    every request (create, update, delete and the reads) keeps it; so after
    any sequence of requests every id in the store maps to a complete
    student: exactly the fields [name], [age], [year], holding a string, an
    integer and a string. *)
Theorem store_invariant :
  PyDict.keys students = [1; 2]
  ∧ store_inv students
  ∧ (∀ rq st, store_inv st → store_inv (app rq st).2)
  ∧ (∀ rqs k d,
       PyDict.getitem k (serve rqs students) = Some d →
       ∃ n a y,
         d = {[ "name" := VStr n; "age" := VInt a; "year" := VStr y ]}).
Proof.
  split; [done|]. split; [apply students_inv|].
  split; [apply app_store_inv|].
  intros rqs k d Hget.
  pose proof (serve_store_inv rqs students students_inv) as Hinv.
  destruct (store_inv_getitem _ _ _ Hinv Hget) as [[n a y] ->].
  by exists n, a, y.
Qed.

Lemma store_invariant_witness :
  store_inv
    (app (PUT_update_student 1
            {| UpdateStudent.b_name := UpdateStudent.Absent;
               UpdateStudent.b_age := UpdateStudent.Present 99;
               UpdateStudent.b_year := UpdateStudent.Null |}) students).2.
Proof.
  destruct store_invariant as (_ & Hinit & Hstep & _).
  apply Hstep, Hinit.
Defined.

(** C9. [POST /create-student/{student_id}] has no bound on the id: for an
    id outside (0, 4) that is not in the store the record is inserted and
    sent back with 200, yet [GET /get-student/{student_id}] refuses that id
    with 422 whatever the store holds; update and delete have no bound
    either, and on such an id, once it is in the store, they answer as on
    any other. *)
Theorem create_unbounded (student_id : Z) (student : Student.t) (st : store) :
  ¬ (0 < student_id < 4) →
  PyDict.contains student_id st = false →
  let '(rsp, st1) := app (POST_create_student student_id student) st in
  rsp = JSONResponse 200 (Student.dict student)
  ∧ PyDict.getitem student_id st1 = Some (Student.dict student)
  ∧ (∀ k, k ≠ student_id → PyDict.getitem k st1 = PyDict.getitem k st)
  ∧ (∀ st', app (GET_get_student student_id) st' = (RequestValidationError, st'))
  ∧ (∀ st' d body,
       PyDict.getitem student_id st' = Some d →
       (app (PUT_update_student student_id body) st').1
       = JSONResponse 200 (merge (UpdateStudent.validate body) d)
       ∧ PyDict.getitem student_id
           (app (PUT_update_student student_id body) st').2
         = Some (merge (UpdateStudent.validate body) d))
  ∧ (∀ st',
       PyDict.contains student_id st' = true →
       (app (DELETE_delete_student student_id) st').1
       = JSONResponse 200 {[ "Message" := VStr "Student deleted successfully" ]}
       ∧ PyDict.contains student_id
           (app (DELETE_delete_student student_id) st').2 = false).
Proof.
  intros Hout Habs. apply PyDictFacts.contains_false in Habs.
  rewrite app_create_student, Habs.
  split; [done|]. split; [by apply getitem_app_last|].
  split; [intros k Hk; by apply getitem_app_last_ne|].
  split; [intros st'; by apply app_get_student_out|].
  split.
  - intros st' d body Hget.
    rewrite (app_update_student_present _ _ _ d) by done. simpl.
    split; [done|]. apply PyDictFacts.getitem_setitem_eq.
  - intros st' Hin. apply PyDictFacts.contains_true in Hin as [d Hget].
    rewrite app_delete_student, Hget. simpl. split; [done|].
    apply PyDictFacts.contains_false, PyDictFacts.getitem_delitem_eq.
Qed.

Lemma create_unbounded_witness :
  let s := {| Student.name := "far"; Student.age := 30;
              Student.year := "year 20" |} in
  (app (POST_create_student 999 s) students).1
  = JSONResponse 200 (Student.dict s)
  ∧ (app (GET_get_student 999)
       (app (POST_create_student 999 s) students).2).1
    = RequestValidationError.
Proof.
  intros s.
  pose proof (create_unbounded 999 s students ltac:(lia) eq_refl) as H.
  destruct (app (POST_create_student 999 s) students) as [rsp st1].
  destruct H as (-> & _ & _ & Hget & _). split; [done|].
  by rewrite Hget.
Defined.

(** * Further properties of the handlers *)

Section MoreFacts.
Import PyDict PyDictFacts.
Implicit Types (st : store) (d : gmap string value).

Lemma for_in_store_unchanged {A} (ks : list Z) (body : Z → M (option A))
    (after : M A) st :
  (∀ k, (body k st).2 = st) → (after st).2 = st →
  (for_in ks body after st).2 = st.
Proof.
  intros Hbody Hafter. induction ks as [|k ks IH]; [done|].
  rewrite for_in_cons. specialize (Hbody k).
  destruct (body k st) as [[[a|]|e] st']; simpl in Hbody; by subst.
Qed.

Lemma get_student_by_name_store name test st :
  (get_student_by_name name test st).2 = st.
Proof.
  unfold get_student_by_name. rewrite bind_get_students.
  apply for_in_store_unchanged; [|done].
  intros k. unfold_M.
  destruct (getitem k st) as [d|] eqn:Hk; simpl; [|done].
  destruct (d !! "name") as [n|]; simpl; [|done].
  destruct (py_eq n (of_opt_str name)); simpl; [|done].
  by rewrite Hk.
Qed.

Lemma app_read_store rq st : is_read rq = true → (app rq st).2 = st.
Proof.
  destruct rq as [|student_id|name [test|]|student_id name [test|]
                  |student_id student|student_id body|student_id];
    intros Hread; try done.
  - destruct (decide (0 < student_id < 4)).
    + by rewrite app_get_student_in.
    + by rewrite app_get_student_out.
  - unfold app. simpl.
    pose proof (get_student_by_name_store name test st) as Hst.
    by destruct (get_student_by_name name test st).
  - change (app (GET_get_by_name_id student_id name (Some test)) st)
      with (app (GET_get_by_name name (Some test)) st).
    unfold app. simpl.
    pose proof (get_student_by_name_store name test st) as Hst.
    by destruct (get_student_by_name name test st).
Qed.

Lemma merge_idemp u d : merge u (merge u d) = merge u d.
Proof.
  apply map_eq. intros f.
  destruct (decide (f = "name")) as [->|Hn].
  { rewrite !merge_lookup_name. by destruct (UpdateStudent.name u). }
  destruct (decide (f = "age")) as [->|Ha].
  { rewrite !merge_lookup_age. by destruct (UpdateStudent.age u). }
  destruct (decide (f = "year")) as [->|Hy].
  { rewrite !merge_lookup_year. by destruct (UpdateStudent.year u). }
  by rewrite !merge_lookup_other.
Qed.

Lemma delitem_app_last student_id d st :
  getitem student_id st = None →
  delitem student_id (st ++ [(student_id, d)]) = st.
Proof.
  unfold delitem, t.
  induction st as [|[k0 d0] st IH]; cbn [getitem Datatypes.app].
  - intros _.
    rewrite (filter_cons (λ kv : Z * gmap string value, kv.1 ≠ student_id)).
    by rewrite decide_False by (simpl; auto).
  - destruct (decide (student_id = k0)) as [->|Hne]; [done|]. intros Hget.
    rewrite (filter_cons (λ kv : Z * gmap string value, kv.1 ≠ student_id)).
    rewrite decide_True by (simpl; congruence). f_equal. by apply IH.
Qed.

Lemma keys_delitem student_id st :
  keys (delitem student_id st) = filter (λ k, k ≠ student_id) (keys st).
Proof.
  unfold keys, delitem, t. induction st as [|[k d] st IH]; [done|].
  rewrite (filter_cons (λ kv : Z * gmap string value, kv.1 ≠ student_id)).
  rewrite fmap_cons. rewrite (filter_cons (λ k : Z, k ≠ student_id)).
  simpl. destruct (decide (k ≠ student_id)); [|done].
  rewrite fmap_cons. simpl. by f_equal.
Qed.

Lemma setitem_comm {V} k1 k2 (v1 v2 : V) (l : PyDict.t V) :
  k1 ≠ k2 → is_Some (getitem k1 l) → is_Some (getitem k2 l) →
  setitem k1 v1 (setitem k2 v2 l) = setitem k2 v2 (setitem k1 v1 l).
Proof.
  intros Hne. induction l as [|[k v] l IH]; simpl.
  - by intros [? ?].
  - intros H1 H2.
    destruct (decide (k1 = k)) as [->|Hk1], (decide (k2 = k)) as [->|Hk2];
      simpl; try done.
    + by rewrite decide_True, decide_False.
    + by rewrite decide_False, decide_True.
    + rewrite !decide_False by done. f_equal. by apply IH.
Qed.

Lemma name_matches_dict n k s :
  name_matches (Some n) (k, Student.dict s) ↔ Student.name s = n.
Proof.
  unfold name_matches, Student.dict. simpl.
  rewrite lookup_insert_eq. split; [by intros [= ->] | by intros ->].
Qed.

Lemma full_student_not_found d :
  full_student d → d ≠ {[ "Data" := VStr "Not found" ]}.
Proof.
  intros [s ->] Heq.
  assert (Student.dict s !! "name"
          = ({[ "Data" := VStr "Not found" ]} : gmap string value) !! "name")
    as Hn by (by rewrite Heq).
  unfold Student.dict in Hn. by simplify_map_eq.
Qed.
End MoreFacts.

(** X1. The four [@app.get] routes only read: [GET /] always answers
    [{"name": "First Data"}] with 200, and any sequence of GET requests,
    whether they are answered, refused or not found, leaves the store
    exactly as it was, whatever it holds. *)
Theorem reads_keep_store :
  (∀ st, app GET_index st
         = (JSONResponse 200 {[ "name" := VStr "First Data" ]}, st))
  ∧ (∀ rqs st, forallb is_read rqs = true → serve rqs st = st).
Proof.
  split; [done|].
  intros rqs. unfold serve.
  induction rqs as [|rq rqs IH]; intros st Hread; simpl in *; [done|].
  apply andb_true_iff in Hread as [Hrq Hrqs].
  rewrite app_read_store by done. by apply IH.
Qed.

Lemma reads_keep_store_witness :
  serve [GET_get_student 1; GET_get_student 9; GET_get_by_name None None;
         GET_get_by_name_id 5 (Some "mohit") (Some 0); GET_index] students
  = students.
Proof. apply (proj2 reads_keep_store). reflexivity. Defined.

(** X2. [PUT /update-student/{student_id}] on an id that is not in the
    store answers [{"Error": "Students does not exits"}] with 200 and
    changes nothing; and no update, on any id, adds an id, removes one or
    changes their order. *)
Theorem update_student_missing :
  (∀ student_id body st,
     PyDict.contains student_id st = false →
     app (PUT_update_student student_id body) st
     = (JSONResponse 200 {[ "Error" := VStr "Students does not exits" ]}, st))
  ∧ (∀ student_id body st,
       PyDict.keys (app (PUT_update_student student_id body) st).2
       = PyDict.keys st).
Proof.
  split.
  - intros student_id body st Habs. apply PyDictFacts.contains_false in Habs.
    by apply app_update_student_absent.
  - intros student_id body st.
    destruct (PyDict.getitem student_id st) as [d|] eqn:Hget.
    + rewrite (app_update_student_present _ _ _ d) by done. simpl.
      apply PyDictFacts.keys_setitem_present. by rewrite Hget.
    + by rewrite app_update_student_absent.
Qed.

Lemma update_student_missing_witness :
  app (PUT_update_student 3
         {| UpdateStudent.b_name := UpdateStudent.Present "new";
            UpdateStudent.b_age := UpdateStudent.Present 18;
            UpdateStudent.b_year := UpdateStudent.Present "year 30" |})
    students
  = (JSONResponse 200 {[ "Error" := VStr "Students does not exits" ]}, students).
Proof. apply (proj1 update_student_missing). reflexivity. Defined.

(** X3. Update then get: for an id in (0, 4) that is in the store,
    [GET /get-student/{student_id}] right after an update answers exactly
    what the update answered, the merged record with 200. *)
Theorem update_then_get (student_id : Z) (body : UpdateStudent.body)
    (st : store) (d : gmap string value) :
  0 < student_id < 4 →
  PyDict.getitem student_id st = Some d →
  let '(rsp, st1) := app (PUT_update_student student_id body) st in
  rsp = JSONResponse 200 (merge (UpdateStudent.validate body) d)
  ∧ app (GET_get_student student_id) st1 = (rsp, st1).
Proof.
  intros Hin Hget. rewrite (app_update_student_present _ _ _ d) by done.
  split; [done|]. rewrite app_get_student_in by done.
  by rewrite PyDictFacts.getitem_setitem_eq.
Qed.

Lemma update_then_get_witness :
  let body := {| UpdateStudent.b_name := UpdateStudent.Absent;
                 UpdateStudent.b_age := UpdateStudent.Present 23;
                 UpdateStudent.b_year := UpdateStudent.Absent |} in
  (app (GET_get_student 2) (app (PUT_update_student 2 body) students).2).1
  = JSONResponse 200
      {[ "name" := VStr "mohit"; "age" := VInt 23; "year" := VStr "year 26" ]}.
Proof.
  intros body.
  pose proof (update_then_get 2 body students _ ltac:(lia) eq_refl) as H.
  destruct (app (PUT_update_student 2 body) students) as [rsp st1].
  destruct H as [Hrsp Hget]. simpl. rewrite Hget, Hrsp. by vm_compute.
Defined.

(** X4. Sending the same update twice is the same as sending it once: the
    second request gets the same answer and leaves the same store, whether
    or not the id is in the store. *)
Theorem update_twice (student_id : Z) (body : UpdateStudent.body)
    (st : store) :
  let once := app (PUT_update_student student_id body) st in
  app (PUT_update_student student_id body) once.2 = once.
Proof.
  intros once. subst once.
  destruct (PyDict.getitem student_id st) as [d|] eqn:Hget.
  - rewrite (app_update_student_present _ _ st d) by done. simpl.
    rewrite (app_update_student_present _ _ _
               (merge (UpdateStudent.validate body) d))
      by apply PyDictFacts.getitem_setitem_eq.
    by rewrite merge_idemp, PyDictFacts.setitem_setitem.
  - rewrite (app_update_student_absent _ _ st) by done. simpl.
    by rewrite app_update_student_absent.
Qed.

(** X5. An update whose body gives no value (every field missing or
    [null]) changes nothing in the store, and on an id that is in the store
    it answers the stored record as it is. *)
Theorem update_without_values (student_id : Z) (body : UpdateStudent.body)
    (st : store) :
  UpdateStudent.validate body
  = {| UpdateStudent.name := None; UpdateStudent.age := None;
       UpdateStudent.year := None |} →
  (app (PUT_update_student student_id body) st).2 = st
  ∧ (∀ d, PyDict.getitem student_id st = Some d →
          (app (PUT_update_student student_id body) st).1
          = JSONResponse 200 d).
Proof.
  intros Hnone.
  destruct (PyDict.getitem student_id st) as [d|] eqn:Hget.
  - rewrite (app_update_student_present _ _ _ d) by done. rewrite Hnone.
    unfold merge, merge_field. simpl. split.
    + by apply PyDictFacts.setitem_same.
    + by intros d' [= ->].
  - rewrite app_update_student_absent by done. by split.
Qed.

Lemma update_without_values_witness :
  app (PUT_update_student 1
         {| UpdateStudent.b_name := UpdateStudent.Null;
            UpdateStudent.b_age := UpdateStudent.Absent;
            UpdateStudent.b_year := UpdateStudent.Null |}) students
  = (JSONResponse 200
       {[ "name" := VStr "anurag adarsh"; "age" := VInt 20;
          "year" := VStr "year 26" ]}, students).
Proof.
  destruct (update_without_values 1
              {| UpdateStudent.b_name := UpdateStudent.Null;
                 UpdateStudent.b_age := UpdateStudent.Absent;
                 UpdateStudent.b_year := UpdateStudent.Null |}
              students eq_refl) as [Hst Hrsp].
  specialize (Hrsp _ eq_refl).
  destruct (app _ students) as [rsp st']. simpl in *. by subst.
Defined.

(** X6. After [DELETE /delete-student/{student_id}], whatever it answered,
    the id is gone for the other handlers: a get of it (for an id in
    (0, 4)) answers 404, an update of it answers the "does not exits" error
    and changes nothing, and a create at it is accepted and puts the new
    record last. *)
Theorem after_delete (student_id : Z) (st : store) :
  let st1 := (app (DELETE_delete_student student_id) st).2 in
  (0 < student_id < 4 →
   app (GET_get_student student_id) st1
   = (JSONResponse 404 {[ "detail" := VStr "Student not found" ]}, st1))
  ∧ (∀ body,
       app (PUT_update_student student_id body) st1
       = (JSONResponse 200 {[ "Error" := VStr "Students does not exits" ]}, st1))
  ∧ (∀ student,
       app (POST_create_student student_id student) st1
       = (JSONResponse 200 (Student.dict student),
          st1 ++ [(student_id, Student.dict student)])).
Proof.
  intros st1.
  assert (PyDict.getitem student_id st1 = None) as Hgone.
  { subst st1. rewrite app_delete_student.
    destruct (PyDict.getitem student_id st) eqn:Hget; simpl; [|done].
    apply PyDictFacts.getitem_delitem_eq. }
  split; [|split].
  - intros Hin. by rewrite app_get_student_in, Hgone.
  - intros body. by apply app_update_student_absent.
  - intros student. by rewrite app_create_student, Hgone.
Qed.

Lemma after_delete_witness :
  app (GET_get_student 2) (app (DELETE_delete_student 2) students).2
  = (JSONResponse 404 {[ "detail" := VStr "Student not found" ]},
     (app (DELETE_delete_student 2) students).2).
Proof. apply (after_delete 2 students). lia. Defined.

(** X7. Create then delete: on an id that is not in the store, a create
    followed by a delete of that id answers "deleted successfully" and gives
    back the store exactly as it was before the create, entries and order. *)
Theorem create_then_delete (student_id : Z) (student : Student.t)
    (st : store) :
  PyDict.contains student_id st = false →
  app (DELETE_delete_student student_id)
    (app (POST_create_student student_id student) st).2
  = (JSONResponse 200 {[ "Message" := VStr "Student deleted successfully" ]},
     st).
Proof.
  intros Habs. apply PyDictFacts.contains_false in Habs.
  rewrite app_create_student, Habs. simpl.
  rewrite app_delete_student, getitem_app_last by done.
  by rewrite delitem_app_last.
Qed.

Lemma create_then_delete_witness :
  let s := {| Student.name := "tmp"; Student.age := 21;
              Student.year := "year 25" |} in
  (app (DELETE_delete_student 0) (app (POST_create_student 0 s) students).2).2
  = students.
Proof.
  intros s. by rewrite (create_then_delete 0 s students eq_refl).
Defined.

(** X8. A second create at the same id is always refused: after any
    [POST /create-student/{student_id}], accepted or not, another create at
    that id with any body answers [{"Error": "Student exists"}] and leaves
    the store, so the record first stored under the id is never replaced by
    a create. *)
Theorem create_twice (student_id : Z) (student student' : Student.t)
    (st : store) :
  let st1 := (app (POST_create_student student_id student) st).2 in
  app (POST_create_student student_id student') st1
  = (JSONResponse 200 {[ "Error" := VStr "Student exists" ]}, st1).
Proof.
  intros st1.
  assert (is_Some (PyDict.getitem student_id st1)) as [d Hd].
  { subst st1. rewrite app_create_student.
    destruct (PyDict.getitem student_id st) eqn:Hget; simpl.
    - by rewrite Hget.
    - by rewrite getitem_app_last. }
  by rewrite app_create_student, Hd.
Qed.

Section Outcomes.
Import PyDict PyDictFacts.

End Outcomes.



(** X10. On a store that satisfies the invariant, [GET /get-by-name] with a
    name finds a student exactly when one is stored under that name: if
    some stored student has the name, the answer is a stored student with
    that name; the answer is [{"Data": "Not found"}] exactly when no stored
    student has it; and without a name the answer is always
    [{"Data": "Not found"}]. *)
Theorem get_by_name_finds (st : store) (n : string) (test : Z) :
  store_inv st →
  let rsp := (app (GET_get_by_name (Some n) (Some test)) st).1 in
  ((∃ k s, PyDict.getitem k st = Some (Student.dict s) ∧ Student.name s = n) →
   ∃ k s, PyDict.getitem k st = Some (Student.dict s) ∧ Student.name s = n
          ∧ rsp = JSONResponse 200 (Student.dict s))
  ∧ (rsp = JSONResponse 200 {[ "Data" := VStr "Not found" ]}
     ↔ ∀ k s, PyDict.getitem k st = Some (Student.dict s) → Student.name s ≠ n)
  ∧ (app (GET_get_by_name None (Some test)) st).1
    = JSONResponse 200 {[ "Data" := VStr "Not found" ]}.
Proof.
  intros Hinv rsp. subst rsp. pose proof Hinv as [Hwf Hfull].
  pose proof (store_inv_has_name st Hinv) as Hname.
  rewrite !app_get_by_name by done. simpl. unfold first_match.
  split; [|split].
  - intros (k & s & Hget & Hn).
    destruct (list_find (name_matches (Some n)) st) as [[i [k' d']]|] eqn:Hfind.
    + apply list_find_Some in Hfind as (Hi & Hm & _).
      apply list_elem_of_lookup_2 in Hi.
      pose proof (PyDictFacts.elem_of_getitem _ _ _ Hwf Hi) as Hget'.
      destruct (store_inv_getitem _ _ _ Hinv Hget') as [s' ->].
      exists k', s'. repeat split; [done|]. by apply (name_matches_dict n k').
    + exfalso. apply list_find_None in Hfind. rewrite Forall_forall in Hfind.
      apply (Hfind (k, Student.dict s)).
      * by apply PyDictFacts.getitem_elem_of.
      * by apply name_matches_dict.
  - destruct (list_find (name_matches (Some n)) st) as [[i [k' d']]|] eqn:Hfind.
    + apply list_find_Some in Hfind as (Hi & Hm & _).
      apply list_elem_of_lookup_2 in Hi.
      pose proof (PyDictFacts.elem_of_getitem _ _ _ Hwf Hi) as Hget'.
      pose proof (store_inv_getitem _ _ _ Hinv Hget') as Hd'.
      split.
      * intros Heq. exfalso.
        apply (full_student_not_found d' Hd'). congruence.
      * intros Hno. exfalso. destruct Hd' as [s' ->].
        apply (Hno k' s' Hget'). by apply (name_matches_dict n k').
    + split; [|done]. intros _ k s Hget Hn.
      apply list_find_None in Hfind. rewrite Forall_forall in Hfind.
      apply (Hfind (k, Student.dict s)).
      * by apply PyDictFacts.getitem_elem_of.
      * by apply name_matches_dict.
  - assert (list_find (name_matches None) st = None) as ->; [|done].
    apply list_find_None, Forall_forall. intros [k d] Hkd Hm.
    rewrite Forall_forall in Hfull. destruct (Hfull _ Hkd) as [s Hs].
    simpl in Hs. subst d. unfold name_matches, Student.dict in Hm.
    simpl in Hm. by rewrite lookup_insert_eq in Hm.
Qed.

Lemma get_by_name_finds_witness :
  ∃ k s,
    PyDict.getitem k students = Some (Student.dict s)
    ∧ Student.name s = "mohit"
    ∧ (app (GET_get_by_name (Some "mohit") (Some 7)) students).1
      = JSONResponse 200 (Student.dict s).
Proof.
  destruct (get_by_name_finds students "mohit" 7 students_inv) as (Hfind & _).
  apply Hfind.
  exists 2, {| Student.name := "mohit"; Student.age := 22;
               Student.year := "year 26" |}.
  split; reflexivity.
Defined.

(** X11. First match wins over later creates: on a store that satisfies
    the invariant, if [GET /get-by-name] finds a record, it answers the same
    record after any [POST /create-student/{student_id}], also one that
    stores another student of the same name. *)
Theorem create_keeps_name_lookup (st : store) (name : option string)
    (test student_id : Z) (student : Student.t) :
  store_inv st →
  (app (GET_get_by_name name (Some test)) st).1
  ≠ JSONResponse 200 {[ "Data" := VStr "Not found" ]} →
  (app (GET_get_by_name name (Some test))
     (app (POST_create_student student_id student) st).2).1
  = (app (GET_get_by_name name (Some test)) st).1.
Proof.
  intros Hinv Hfound.
  pose proof (app_store_inv (POST_create_student student_id student) st Hinv)
    as Hinv1.
  pose proof Hinv as [Hwf _]. pose proof Hinv1 as [Hwf1 _].
  rewrite app_get_by_name in Hfound by (done || by apply store_inv_has_name).
  rewrite !app_get_by_name by (done || by apply store_inv_has_name).
  simpl in *. f_equal. revert Hwf1 Hinv1. rewrite app_create_student.
  destruct (PyDict.getitem student_id st) eqn:Hget; simpl; [done|].
  intros _ _. unfold first_match in *.
  destruct (list_find (name_matches name) st) as [[i kv]|] eqn:Hfind;
    [|done].
  by rewrite (list_find_app_l _ _ _ _ _ Hfind).
Qed.

Lemma create_keeps_name_lookup_witness :
  (app (GET_get_by_name (Some "mohit") (Some 0))
     (app (POST_create_student 3
             {| Student.name := "mohit"; Student.age := 40;
                Student.year := "year 10" |}) students).2).1
  = JSONResponse 200
      {[ "name" := VStr "mohit"; "age" := VInt 22; "year" := VStr "year 26" ]}.
Proof.
  rewrite (create_keeps_name_lookup students (Some "mohit") 0 3 _ students_inv).
  - by vm_compute.
  - vm_compute. intros [=].
Defined.

(** X12. Iteration order of the store: a create at a new id puts the id
    last; a delete takes the id out and keeps the others in order; so an id
    that is deleted and created again moves to the end. *)
Theorem iteration_order (student_id : Z) (student : Student.t) (st : store) :
  (PyDict.contains student_id st = false →
   PyDict.keys (app (POST_create_student student_id student) st).2
   = PyDict.keys st ++ [student_id])
  ∧ PyDict.keys (app (DELETE_delete_student student_id) st).2
    = filter (λ k, k ≠ student_id) (PyDict.keys st)
  ∧ PyDict.keys
      (app (POST_create_student student_id student)
         (app (DELETE_delete_student student_id) st).2).2
    = filter (λ k, k ≠ student_id) (PyDict.keys st) ++ [student_id].
Proof.
  assert (PyDict.keys (app (DELETE_delete_student student_id) st).2
          = filter (λ k, k ≠ student_id) (PyDict.keys st)) as Hdel.
  { rewrite app_delete_student.
    destruct (PyDict.getitem student_id st) eqn:Hget; simpl.
    - apply keys_delitem.
    - rewrite <- keys_delitem. by rewrite PyDictFacts.delitem_absent. }
  assert (∀ st0, PyDict.getitem student_id st0 = None →
            PyDict.keys (app (POST_create_student student_id student) st0).2
            = PyDict.keys st0 ++ [student_id]) as Hadd.
  { intros st0 Hget. rewrite app_create_student, Hget. simpl.
    unfold PyDict.keys. by rewrite fmap_app. }
  split; [|split; [done|]].
  - intros Habs. by apply Hadd, PyDictFacts.contains_false.
  - rewrite Hadd, Hdel; [done|]. rewrite app_delete_student.
    destruct (PyDict.getitem student_id st) eqn:Hget; simpl; [|done].
    apply PyDictFacts.getitem_delitem_eq.
Qed.

Lemma iteration_order_witness :
  PyDict.keys
    (app (POST_create_student 1
            {| Student.name := "again"; Student.age := 5;
               Student.year := "year 1" |})
       (app (DELETE_delete_student 1) students).2).2
  = [2; 1].
Proof.
  destruct (iteration_order 1 {| Student.name := "again"; Student.age := 5;
                                 Student.year := "year 1" |} students)
    as (_ & _ & H).
  rewrite H. reflexivity.
Defined.

(** X13. Updates of two different ids commute: in either order they leave
    the same store, and the answer to each is the one it would get alone. *)
Theorem updates_commute (id1 id2 : Z) (body1 body2 : UpdateStudent.body)
    (st : store) :
  id1 ≠ id2 →
  (app (PUT_update_student id2 body2)
     (app (PUT_update_student id1 body1) st).2).2
  = (app (PUT_update_student id1 body1)
       (app (PUT_update_student id2 body2) st).2).2
  ∧ (app (PUT_update_student id1 body1)
       (app (PUT_update_student id2 body2) st).2).1
    = (app (PUT_update_student id1 body1) st).1.
Proof.
  intros Hne.
  destruct (PyDict.getitem id1 st) as [d1|] eqn:H1,
           (PyDict.getitem id2 st) as [d2|] eqn:H2.
  - rewrite (app_update_student_present id1 body1 st d1) by done.
    rewrite (app_update_student_present id2 body2 st d2) by done. simpl.
    rewrite (app_update_student_present id2 _ _ d2)
      by (by rewrite PyDictFacts.getitem_setitem_ne).
    rewrite (app_update_student_present id1 _ _ d1)
      by (by rewrite PyDictFacts.getitem_setitem_ne).
    simpl. split; [|done]. symmetry. apply setitem_comm; [done|..].
    + by rewrite H1.
    + by rewrite H2.
  - rewrite (app_update_student_present id1 body1 st d1) by done.
    rewrite (app_update_student_absent id2 body2 st) by done. simpl.
    rewrite (app_update_student_absent id2)
      by (by rewrite PyDictFacts.getitem_setitem_ne).
    by rewrite (app_update_student_present id1 body1 st d1).
  - rewrite (app_update_student_absent id1 body1 st) by done.
    rewrite (app_update_student_present id2 body2 st d2) by done. simpl.
    assert (id2 ≠ id1) as Hne' by congruence.
    rewrite (app_update_student_absent id1)
      by (by rewrite PyDictFacts.getitem_setitem_ne).
    by rewrite (app_update_student_present id2 body2 st d2).
  - repeat (rewrite ?(app_update_student_absent id1 body1 st),
              ?(app_update_student_absent id2 body2 st) by done; simpl).
    done.
Qed.

Lemma updates_commute_witness :
  let b1 := {| UpdateStudent.b_name := UpdateStudent.Present "a";
               UpdateStudent.b_age := UpdateStudent.Absent;
               UpdateStudent.b_year := UpdateStudent.Absent |} in
  let b2 := {| UpdateStudent.b_name := UpdateStudent.Absent;
               UpdateStudent.b_age := UpdateStudent.Present 50;
               UpdateStudent.b_year := UpdateStudent.Absent |} in
  serve [PUT_update_student 1 b1; PUT_update_student 2 b2] students
  = serve [PUT_update_student 2 b2; PUT_update_student 1 b1] students.
Proof.
  intros b1 b2.
  change (serve [PUT_update_student 1 b1; PUT_update_student 2 b2] students)
    with (app (PUT_update_student 2 b2)
            (app (PUT_update_student 1 b1) students).2).2.
  change (serve [PUT_update_student 2 b2; PUT_update_student 1 b1] students)
    with (app (PUT_update_student 1 b1)
            (app (PUT_update_student 2 b2) students).2).2.
  apply (updates_commute 1 2 b1 b2 students). lia.
Defined.

(** X14. A create only ever adds: whatever the id and the body, every
    record that was in the store is still there, under the same id and
    unchanged, after [POST /create-student/{student_id}]. *)
Theorem create_keeps_records (student_id k : Z) (student : Student.t)
    (st : store) (d : gmap string value) :
  PyDict.getitem k st = Some d →
  PyDict.getitem k (app (POST_create_student student_id student) st).2
  = Some d.
Proof.
  intros Hk. rewrite app_create_student.
  destruct (PyDict.getitem student_id st) eqn:Hget; simpl; [done|].
  rewrite getitem_app_last_ne; [done|]. intros ->. congruence.
Qed.

Lemma create_keeps_records_witness :
  PyDict.getitem 1
    (app (POST_create_student 1
            {| Student.name := "other"; Student.age := 1;
               Student.year := "year 2" |}) students).2
  = PyDict.getitem 1 students.
Proof.
  by rewrite (create_keeps_records 1 1 _ students _ eq_refl).
Defined.
